(** * EditTableForm and SystemEnvironmentVariableSettings

    A shallow embedding of the two dashboard components of
    [dashboard/src/components/dataBrowser/EditTableForm/EditTableForm.tsx]:
    the table editing form (lazy hydration of the form from the table query,
    the submit handler with its chain of awaited collaborators, the merged
    error slot and its "Clear" action) and the settings panel that masks and
    reveals the system secrets.

    React state is passed explicitly; the awaited collaborators (mutations,
    completion callback, router, toast) are oracles that either resolve or
    reject, and every call made by a handler is recorded in a log. *)

From Stdlib Require Import String List ZArith Bool Lia.
Import ListNotations.

Local Open Scope string_scope.
Local Open Scope Z_scope.

(** ** The fragment of JavaScript the components rely on *)

Module JS.

(** A value used as an array key: [null], [undefined] or a number; the
    numbers the form stores as indices are integers. *)
Inductive index : Type :=
| Null
| Undefined
| Num (i : Z).

(** [xs[i]]: reading an array never throws; a key that is not the position
    of an element yields [undefined]. *)
Definition get {A : Type} (xs : list A) (i : index) : option A :=
  match i with
  | Num z => if z <? 0 then None else nth_error xs (Z.to_nat z)
  | Null | Undefined => None
  end.

(** [o?.f]: optional chaining of a property read. *)
Definition chain {A B : Type} (o : option A) (f : A -> B) : option B :=
  match o with
  | Some a => Some (f a)
  | None => None
  end.

Fixpoint findIndex_from {A : Type} (p : A -> bool) (xs : list A) (k : Z) : Z :=
  match xs with
  | [] => -1
  | x :: rest => if p x then k else findIndex_from p rest (k + 1)
  end.

(** [xs.findIndex(p)]: position of the first element satisfying [p],
    [-1] when there is none. *)
Definition findIndex {A : Type} (p : A -> bool) (xs : list A) : Z :=
  findIndex_from p xs 0.

(** [a || b] on values that are either [null] or an object. *)
Definition or_else {A : Type} (a b : option A) : option A :=
  match a with
  | Some _ => a
  | None => b
  end.

(** [xs?.length > 0]; the comparison with [undefined] is false. *)
Definition nonempty {A : Type} (xs : option (list A)) : bool :=
  match chain xs (fun l => Z.of_nat (length l)) with
  | Some n => 0 <? n
  | None => false
  end.

(** A value of [router.query]: absent, a string, or an array of strings. *)
Inductive queryValue : Type :=
| QUndefined
| QString (s : string)
| QArray (l : list string).

(** Conversion performed by a template literal. *)
Definition toString (q : queryValue) : string :=
  match q with
  | QUndefined => "undefined"
  | QString s => s
  | QArray l => String.concat "," l
  end.

End JS.

(** ** Data model *)

(** Errors are objects carrying a message; an error slot is [null] ([None])
    or such an object. *)
Record Error : Type := { message : string }.

(** Result of awaiting a collaborator. *)
Inductive Outcome : Type :=
| Resolved
| Rejected (e : Error).

(** The [status] string of a query. *)
Module Status.
Inductive t : Type :=
| idle
| loading
| error
| success.

Definition eqb (a b : t) : bool :=
  match a, b with
  | idle, idle | loading, loading | error, error | success, success => true
  | _, _ => false
  end.
End Status.

Module NormalizedQueryDataRow.
Record t : Type := mk { table_name : string }.
End NormalizedQueryDataRow.

(** A column as produced by [normalizeDatabaseColumn]. *)
Module DataGridColumn.
Record t {ColumnType DefaultValue : Type} : Type := mk {
  id : string;
  type : ColumnType;
  defaultValue : DefaultValue;
  isNullable : bool;
  isUnique : bool;
  isPrimary : bool;
  isIdentity : bool
}.
Arguments t : clear implicits.
Arguments mk {ColumnType DefaultValue}.
End DataGridColumn.

(** A column as edited in the form. *)
Module FormColumn.
Record t {ColumnType DefaultValue : Type} : Type := mk {
  id : string;
  name : string;
  type : ColumnType;
  defaultValue : DefaultValue;
  isNullable : bool;
  isUnique : bool
}.
Arguments t : clear implicits.
Arguments mk {ColumnType DefaultValue}.
End FormColumn.

Module BaseTableFormValues.
Record t {ColumnType DefaultValue ForeignKeyRelation : Type} : Type := mk {
  name : string;
  columns : list (FormColumn.t ColumnType DefaultValue);
  primaryKeyIndex : JS.index;
  identityColumnIndex : JS.index;
  foreignKeyRelations : option (list ForeignKeyRelation)
}.
Arguments t : clear implicits.
Arguments mk {ColumnType DefaultValue ForeignKeyRelation}.
End BaseTableFormValues.

(** The updated table: the spread form values plus the two derived names. *)
Module DatabaseTable.
Record t {ColumnType DefaultValue ForeignKeyRelation : Type} : Type := mk {
  name : string;
  columns : list (FormColumn.t ColumnType DefaultValue);
  primaryKeyIndex : JS.index;
  identityColumnIndex : JS.index;
  foreignKeyRelations : option (list ForeignKeyRelation);
  primaryKey : option string;
  identityColumn : option string
}.
Arguments t : clear implicits.
Arguments mk {ColumnType DefaultValue ForeignKeyRelation}.
End DatabaseTable.

(** Payload of the table query. *)
Module TableData.
Record t {RawColumn ForeignKeyRelation : Type} : Type := mk {
  columns : option (list RawColumn);
  foreignKeyRelations : option (list ForeignKeyRelation)
}.
Arguments t : clear implicits.
Arguments mk {RawColumn ForeignKeyRelation}.
End TableData.

(** What [useTableQuery] hands to a render. *)
Module TableQuery.
Record t {RawColumn ForeignKeyRelation : Type} : Type := mk {
  data : option (TableData.t RawColumn ForeignKeyRelation);
  status : Status.t;
  error : option Error
}.
Arguments t : clear implicits.
Arguments mk {RawColumn ForeignKeyRelation}.
End TableQuery.

(** Variables of the update mutation. *)
Module UpdateTableVariables.
Record t {ColumnType DefaultValue ForeignKeyRelation : Type} : Type := mk {
  originalTable : NormalizedQueryDataRow.t;
  originalColumns : list (DataGridColumn.t ColumnType DefaultValue);
  originalForeignKeyRelations : option (list ForeignKeyRelation);
  updatedTable : DatabaseTable.t ColumnType DefaultValue ForeignKeyRelation
}.
Arguments t : clear implicits.
Arguments mk {ColumnType DefaultValue ForeignKeyRelation}.
End UpdateTableVariables.

(** Variables of the foreign key tracking mutation. *)
Module TrackForeignKeyRelationsVariables.
Record t {ForeignKeyRelation : Type} : Type := mk {
  foreignKeyRelations : option (list ForeignKeyRelation);
  schema : string;
  table : string
}.
Arguments t : clear implicits.
Arguments mk {ForeignKeyRelation}.
End TrackForeignKeyRelationsVariables.

Module RouterQuery.
Record t : Type := mk {
  workspaceSlug : JS.queryValue;
  appSlug : JS.queryValue;
  dataSourceSlug : JS.queryValue
}.
End RouterQuery.

(** ** The table editing form *)

Section EditTableForm.

Context {ColumnType DefaultValue ForeignKeyRelation RawColumn : Type}.

(** [normalizeDatabaseColumn] lives in [utils/dataBrowser]; the form only
    relies on it mapping a raw column to a data grid column. *)
Variable normalizeDatabaseColumn :
  RawColumn -> DataGridColumn.t ColumnType DefaultValue.

Local Abbreviation Column := (DataGridColumn.t ColumnType DefaultValue).
Local Abbreviation Values := (BaseTableFormValues.t ColumnType DefaultValue ForeignKeyRelation).
Local Abbreviation Table := (DatabaseTable.t ColumnType DefaultValue ForeignKeyRelation).
Local Abbreviation Query := (TableQuery.t RawColumn ForeignKeyRelation).
Local Abbreviation UpdateVars := (UpdateTableVariables.t ColumnType DefaultValue ForeignKeyRelation).
Local Abbreviation TrackVars := (TrackForeignKeyRelationsVariables.t ForeignKeyRelation).

(** *** Calls to collaborators and the handler monad *)

Inductive Call : Type :=
| UpdateTable (v : UpdateVars)
| TrackForeignKeyRelations (v : TrackVars)
| OnSubmit
| RouterPush (url : string)
| TriggerToast (text : string).

(** A computation appends the calls it makes to the log and either
    returns a value or throws. *)
Definition Eff (A : Type) : Type := list Call -> list Call * (Error + A).

Definition ret {A : Type} (a : A) : Eff A := fun log => (log, inr a).

Definition bind {A B : Type} (m : Eff A) (k : A -> Eff B) : Eff B :=
  fun log =>
    match m log with
    | (log', inr a) => k a log'
    | (log', inl e) => (log', inl e)
    end.

(** [await f(args)]: the call is made, then its promise settles. *)
Definition await (c : Call) (o : Outcome) : Eff unit :=
  fun log =>
    ((log ++ [c])%list, match o with Resolved => inr tt | Rejected e => inl e end).

(** A call that returns normally. *)
Definition perform (c : Call) : Eff unit := fun log => ((log ++ [c])%list, inr tt).

(** [try { body } catch { handler }] *)
Definition try_catch {A : Type} (body : Eff A) (handler : Eff A) : Eff A :=
  fun log =>
    match body log with
    | (log', inr a) => (log', inr a)
    | (log', inl _) => handler log'
    end.

Notation "m ;; k" := (bind m (fun _ => k))
  (at level 61, right associativity).

Definition run {A : Type} (m : Eff A) : list Call * (Error + A) := m [].

(** *** Props, hooks and component state *)

Record Props : Type := {
  onSubmit : option (unit -> Outcome);
  schema : string;
  table : NormalizedQueryDataRow.t
}.

(** The asynchronous collaborators captured by a render. *)
Record Hooks : Type := {
  updateTable : UpdateVars -> Outcome;
  trackForeignKeyRelations : TrackVars -> Outcome;
  router_query : RouterQuery.t;
  router_push : string -> Outcome
}.

Record State : Type := mkState {
  formInitialized : bool;
  form : Values;
  tableQuery : Query;
  updateError : option Error;
  foreignKeyError : option Error
}.

Definition columnsStatus (st : State) : Status.t := TableQuery.status (tableQuery st).
Definition columnsError (st : State) : option Error := TableQuery.error (tableQuery st).

(** [const { columns, foreignKeyRelations } = data || { columns: [], foreignKeyRelations: [] }] *)
Definition columns (st : State) : option (list RawColumn) :=
  match TableQuery.data (tableQuery st) with
  | Some d => TableData.columns d
  | None => Some []
  end.

Definition foreignKeyRelations (st : State) : option (list ForeignKeyRelation) :=
  match TableQuery.data (tableQuery st) with
  | Some d => TableData.foreignKeyRelations d
  | None => Some []
  end.

(** [(columns || []).map(normalizeDatabaseColumn)] *)
Definition dataGridColumns (st : State) : list Column :=
  map normalizeDatabaseColumn
      (match columns st with Some l => l | None => [] end).

(** [const error = columnsError || updateError || foreignKeyError] *)
Definition error (st : State) : option Error :=
  JS.or_else (JS.or_else (columnsError st) (updateError st)) (foreignKeyError st).

(** [reset] of the two mutation hooks. *)
Definition resetForeignKeyError (st : State) : State :=
  mkState (formInitialized st) (form st) (tableQuery st) (updateError st) None.

Definition resetUpdateError (st : State) : State :=
  mkState (formInitialized st) (form st) (tableQuery st) None (foreignKeyError st).

Definition resetError (st : State) : State :=
  resetUpdateError (resetForeignKeyError st).

(** [form.reset(values)] and [setFormInitialized(b)] *)
Definition form_reset (v : Values) (st : State) : State :=
  mkState (formInitialized st) v (tableQuery st) (updateError st) (foreignKeyError st).

Definition setFormInitialized (b : bool) (st : State) : State :=
  mkState b (form st) (tableQuery st) (updateError st) (foreignKeyError st).

Definition set_tableQuery (q : Query) (st : State) : State :=
  mkState (formInitialized st) (form st) q (updateError st) (foreignKeyError st).

Definition set_mutationErrors (u f : option Error) (st : State) : State :=
  mkState (formInitialized st) (form st) (tableQuery st) u f.

(** [useForm({ defaultValues })] *)
Definition defaultValues (props : Props) : Values :=
  BaseTableFormValues.mk
    (NormalizedQueryDataRow.table_name (table props)) [] JS.Null JS.Null (Some []).

Definition mount (props : Props) (q : Query) : State :=
  mkState false (defaultValues props) q None None.

(** *** Lazy hydration of the form *)

Definition toFormColumn (column : Column) : FormColumn.t ColumnType DefaultValue :=
  FormColumn.mk
    (DataGridColumn.id column)
    (DataGridColumn.id column)
    (DataGridColumn.type column)
    (DataGridColumn.defaultValue column)
    (DataGridColumn.isNullable column)
    (DataGridColumn.isUnique column).

(** [i > -1 ? i : null] *)
Definition index_or_null (i : Z) : JS.index :=
  if -1 <? i then JS.Num i else JS.Null.

Definition hydratedValues (props : Props) (st : State) : Values :=
  let primaryColumnIndex := JS.findIndex DataGridColumn.isPrimary (dataGridColumns st) in
  let identityColumnIndex := JS.findIndex DataGridColumn.isIdentity (dataGridColumns st) in
  BaseTableFormValues.mk
    (NormalizedQueryDataRow.table_name (table props))
    (map toFormColumn (dataGridColumns st))
    (index_or_null primaryColumnIndex)
    (index_or_null identityColumnIndex)
    (foreignKeyRelations st).

(** The body of the hydration effect. *)
Definition useEffect_hydration (props : Props) (st : State) : State :=
  if Status.eqb (columnsStatus st) Status.success
     && (0 <? Z.of_nat (length (dataGridColumns st)))
     && negb (formInitialized st)
  then setFormInitialized true (form_reset (hydratedValues props st) st)
  else st.

(** What can happen to a mounted form between two runs of the effect. *)
Inductive Event : Type :=
| EffectRun
| QuerySettled (q : Query)
| UserEdit (v : Values)
| MutationSettled (u f : option Error)
| ClearClicked.

Definition step (props : Props) (st : State) (ev : Event) : State :=
  match ev with
  | EffectRun => useEffect_hydration props st
  | QuerySettled q => set_tableQuery q st
  | UserEdit v => form_reset v st
  | MutationSettled u f => set_mutationErrors u f st
  | ClearClicked => resetError st
  end.

Definition steps (props : Props) (st : State) (evs : list Event) : State :=
  fold_left (step props) evs st.

(** *** The submit handler *)

Definition deriveUpdatedTable (values : Values) : Table :=
  DatabaseTable.mk
    (BaseTableFormValues.name values)
    (BaseTableFormValues.columns values)
    (BaseTableFormValues.primaryKeyIndex values)
    (BaseTableFormValues.identityColumnIndex values)
    (BaseTableFormValues.foreignKeyRelations values)
    (JS.chain
       (JS.get (BaseTableFormValues.columns values)
               (BaseTableFormValues.primaryKeyIndex values))
       FormColumn.name)
    (match BaseTableFormValues.identityColumnIndex values with
     | JS.Null | JS.Undefined => None
     | JS.Num _ =>
         JS.chain
           (JS.get (BaseTableFormValues.columns values)
                   (BaseTableFormValues.identityColumnIndex values))
           FormColumn.name
     end).

Definition browserPath (hooks : Hooks) (props : Props) (tableName : string) : string :=
  "/" ++ JS.toString (RouterQuery.workspaceSlug (router_query hooks))
  ++ "/" ++ JS.toString (RouterQuery.appSlug (router_query hooks))
  ++ "/database/browser/"
  ++ JS.toString (RouterQuery.dataSourceSlug (router_query hooks))
  ++ "/" ++ schema props
  ++ "/" ++ tableName.

Definition handleSubmit_body
    (props : Props) (hooks : Hooks) (st : State) (values : Values) : Eff unit :=
  let updatedTable := deriveUpdatedTable values in
  let vars :=
    UpdateTableVariables.mk (table props) (dataGridColumns st)
                            (foreignKeyRelations st) updatedTable in
  await (UpdateTable vars) (updateTable hooks vars) ;;
  (if JS.nonempty (DatabaseTable.foreignKeyRelations updatedTable)
   then
     let tvars :=
       TrackForeignKeyRelationsVariables.mk
         (DatabaseTable.foreignKeyRelations updatedTable)
         (schema props)
         (DatabaseTable.name updatedTable) in
     await (TrackForeignKeyRelations tvars) (trackForeignKeyRelations hooks tvars)
   else ret tt) ;;
  (match onSubmit props with
   | Some callback => await OnSubmit (callback tt)
   | None => ret tt
   end) ;;
  (if negb (String.eqb (NormalizedQueryDataRow.table_name (table props))
                       (DatabaseTable.name updatedTable))
   then
     let url := browserPath hooks props (DatabaseTable.name updatedTable) in
     await (RouterPush url) (router_push hooks url)
   else ret tt) ;;
  perform (TriggerToast "The table has been updated successfully.").

Definition handleSubmit
    (props : Props) (hooks : Hooks) (st : State) (values : Values) : Eff unit :=
  try_catch (handleSubmit_body props hooks st values) (ret tt).

(** *** Reading the call log *)

Definition isUpdateTable (c : Call) : bool :=
  match c with UpdateTable _ => true | _ => false end.

Definition isTrackForeignKeyRelations (c : Call) : bool :=
  match c with TrackForeignKeyRelations _ => true | _ => false end.

Definition isOnSubmit (c : Call) : bool :=
  match c with OnSubmit => true | _ => false end.

Definition isRouterPush (c : Call) : bool :=
  match c with RouterPush _ => true | _ => false end.

Definition isTriggerToast (c : Call) : bool :=
  match c with TriggerToast _ => true | _ => false end.

(** The calls of one kind, in the order they were made. *)
Definition calls (kind : Call -> bool) (log : list Call) : list Call :=
  filter kind log.

(** The variables [handleSubmit] hands to the update mutation. *)
Definition updateVariables (props : Props) (st : State) (values : Values) : UpdateVars :=
  UpdateTableVariables.mk (table props) (dataGridColumns st)
                          (foreignKeyRelations st) (deriveUpdatedTable values).

(** The variables [handleSubmit] hands to the tracking mutation. *)
Definition trackVariables (props : Props) (values : Values) : TrackVars :=
  TrackForeignKeyRelationsVariables.mk
    (BaseTableFormValues.foreignKeyRelations values)
    (schema props)
    (BaseTableFormValues.name values).

End EditTableForm.

(** [needle] occurs in [hay]. *)
Definition contains (needle hay : string) : Prop :=
  exists before after : string, hay = before ++ needle ++ after.

(** ** The system environment variables panel *)

Module SystemEnvironmentVariableSettings.

Record Application : Type := {
  id : string;
  hasuraGraphqlAdminSecret : string
}.

Record App : Type := {
  webhookSecret : string;
  hasuraGraphqlJwtSecret : string
}.

Record QueryData : Type := { app : option App }.

(** What the hooks hand to a render once the query has settled. *)
Record HookValues : Type := {
  currentApplication : option Application;
  data : option QueryData
}.

Record State : Type := mkState {
  showAdminSecret : bool;
  showWebhookSecret : bool
}.

(** [useState(false)] twice. *)
Definition initialState : State := mkState false false.

(** Calls a handler of the panel makes to its collaborators. *)
Inductive Effect : Type :=
| OpenAlertDialog (title : string) (jwtSecret : option string).

(** [setShowAdminSecret(updater)] and [setShowWebhookSecret(updater)] *)
Definition setShowAdminSecret (updater : bool -> bool) (st : State) : State :=
  mkState (updater (showAdminSecret st)) (showWebhookSecret st).

Definition setShowWebhookSecret (updater : bool -> bool) (st : State) : State :=
  mkState (showAdminSecret st) (updater (showWebhookSecret st)).

(** The [onClick] handlers of the two eye buttons and of the JWT button:
    next state and the collaborator calls made. *)
Definition onClick_adminSecret (st : State) : State * list Effect :=
  (setShowAdminSecret (fun show => negb show) st, []).

Definition onClick_webhookSecret (st : State) : State * list Effect :=
  (setShowWebhookSecret (fun show => negb show) st, []).

Definition showJwtSecret (ctx : HookValues) (st : State) : State * list Effect :=
  (st,
   [OpenAlertDialog "Auth JWT Secret"
      (match JS.chain (data ctx) app with
       | Some (Some a) => Some (hasuraGraphqlJwtSecret a)
       | _ => None
       end)]).

Definition mask : string := "●●●●●●●●●●●●●●●●●●●●●●●●●●●●●●●".

(** Content of a value cell. *)
Inductive Node : Type :=
| Text (s : string)
| InlineCode (children : option string).

Definition adminSecretText (ctx : HookValues) (st : State) : Node :=
  if showAdminSecret st
  then InlineCode (JS.chain (currentApplication ctx) hasuraGraphqlAdminSecret)
  else Text mask.

Definition webhookSecretText (ctx : HookValues) (st : State) : Node :=
  if showWebhookSecret st
  then InlineCode
         (match JS.chain (data ctx) app with
          | Some (Some a) => Some (webhookSecret a)
          | _ => None
          end)
  else Text mask.

(** [variables: { id: currentApplication?.id }] of the injected variables
    query; the query is keyed by these variables only. *)
Definition queryVariables (ctx : HookValues) (st : State) : option string :=
  JS.chain (currentApplication ctx) id.

End SystemEnvironmentVariableSettings.

(** ** Vocabulary of the properties *)

(** [c] is the first element of [xs] satisfying [p], and sits at position [n]. *)
Definition first_match {A : Type} (p : A -> bool) (xs : list A) (n : nat) (c : A) : Prop :=
  nth_error xs n = Some c /\
  p c = true /\
  forall (j : nat) (c' : A), (j < n)%nat -> nth_error xs j = Some c' -> p c' = false.

(** [i] addresses the first element of [xs] satisfying [p], and is [null]
    exactly when no element does. *)
Definition addresses_first {A : Type} (p : A -> bool) (xs : list A) (i : JS.index) : Prop :=
  match i with
  | JS.Num z => exists (n : nat) (c : A), z = Z.of_nat n /\ first_match p xs n c
  | JS.Null => forall c : A, In c xs -> p c = false
  | JS.Undefined => False
  end.

(** [i] is not the position of an element of [xs]. *)
Definition out_of_bounds {A : Type} (xs : list A) (i : JS.index) : Prop :=
  match i with
  | JS.Num z => z < 0 \/ Z.of_nat (length xs) <= z
  | JS.Null | JS.Undefined => False
  end.

(** ** What the table editing form renders *)

(** The three outputs of the component: the activity indicator, the alert
    shown after a failed load, and the form, optionally preceded by the
    alert that carries the message of the merged error and the "Clear"
    button. *)
Inductive View : Type :=
| LoadingIndicator (label : string) (delay : Z)
| LoadErrorAlert (text : string)
| FormProvider (alert : option string) (submitButtonText : string).

Section EditTableFormView.

Context {ColumnType DefaultValue ForeignKeyRelation RawColumn : Type}.
Variable normalizeDatabaseColumn :
  RawColumn -> DataGridColumn.t ColumnType DefaultValue.

Local Abbreviation St := (@State ColumnType DefaultValue ForeignKeyRelation RawColumn).
Local Abbreviation Values := (BaseTableFormValues.t ColumnType DefaultValue ForeignKeyRelation).
Local Abbreviation Hks := (@Hooks ColumnType DefaultValue ForeignKeyRelation).
Local Abbreviation Cl := (@Call ColumnType DefaultValue ForeignKeyRelation).
Local Abbreviation Ev := (@Event ColumnType DefaultValue ForeignKeyRelation RawColumn).

(** [e instanceof Error], the class test of the runtime. A slot holds
    [null] or a rejection value; the hooks may reject with a value that is
    not an instance of [Error] (a plain response object, say), and the
    component reads [message] only after this test. *)
Variable instanceofError : Error -> bool.

(** [slot && slot instanceof Error] *)
Definition errorInstance (slot : option Error) : option Error :=
  match slot with
  | Some e => if instanceofError e then Some e else None
  | None => None
  end.

(** The [return] statements of the component, in their order. *)
Definition render (st : St) : View :=
  if Status.eqb (columnsStatus st) Status.loading
  then LoadingIndicator "Loading columns..." 1000
  else if Status.eqb (columnsStatus st) Status.error
  then LoadErrorAlert
         (match errorInstance (columnsError st) with
          | Some e => message e
          | None => "An error occurred while loading the columns. Please try again."
          end)
  else FormProvider (JS.chain (errorInstance (error st)) message) "Save".

(** A click on "Clear": the button exists only inside the alert of the
    form view, and runs [resetError]. *)
Definition onClick_clear (st : St) : option St :=
  match render st with
  | FormProvider (Some _) _ => Some (resetError st)
  | _ => None
  end.

(** The table query reports an error only together with the status
    ['error']. *)
Definition load_error_means_failed
    (q : TableQuery.t RawColumn ForeignKeyRelation) : Prop :=
  TableQuery.error q <> None -> TableQuery.status q = Status.error.

(** Position of a call in the sequence written in [handleSubmit]. *)
Definition rank (c : Cl) : nat :=
  match c with
  | UpdateTable _ => 0
  | TrackForeignKeyRelations _ => 1
  | OnSubmit => 2
  | RouterPush _ => 3
  | TriggerToast _ => 4
  end.

Fixpoint increasing (l : list nat) : bool :=
  match l with
  | a :: (b :: _) as rest => (a <? b)%nat && increasing rest
  | _ => true
  end.

Definition resolved (o : Outcome) : bool :=
  match o with
  | Resolved => true
  | Rejected _ => false
  end.

(** Every collaborator that a submission of [values] reaches resolves. *)
Definition allResolved (props : Props) (hooks : Hks) (st : St) (values : Values) : bool :=
  resolved (updateTable hooks (updateVariables normalizeDatabaseColumn props st values))
  && (negb (JS.nonempty (BaseTableFormValues.foreignKeyRelations values))
      || resolved (trackForeignKeyRelations hooks (trackVariables props values)))
  && match onSubmit props with
     | Some callback => resolved (callback tt)
     | None => true
     end
  && (String.eqb (NormalizedQueryDataRow.table_name (table props))
                 (BaseTableFormValues.name values)
      || resolved (router_push hooks
                     (browserPath hooks props (BaseTableFormValues.name values)))).

Definition isUserEdit (ev : Ev) : bool :=
  match ev with
  | UserEdit _ => true
  | _ => false
  end.

End EditTableFormView.

(** ** What the system environment variables panel renders *)

Module SystemEnvironmentVariablePanel.

Import SystemEnvironmentVariableSettings.

Inductive Icon : Type :=
| EyeIcon
| EyeOffIcon.

(** A row with a secret: its name, the value cell and the eye button. *)
Record SecretRow : Type := {
  variableName : string;
  valueText : Node;
  ariaLabel : string;
  icon : Icon
}.

Record Panel : Type := {
  adminSecretRow : SecretRow;
  webhookSecretRow : SecretRow;
  jwtSecretName : string;
  jwtSecretButton : string
}.

Inductive Rendered : Type :=
| ActivityIndicator (delay : Z) (label : string)
| SettingsContainer (panel : Panel).

Definition adminSecretRowOf (ctx : HookValues) (st : State) : SecretRow :=
  {| variableName := "NHOST_ADMIN_SECRET";
     valueText := adminSecretText ctx st;
     ariaLabel := if showAdminSecret st then "Hide Admin Secret" else "Show Admin Secret";
     icon := if showAdminSecret st then EyeOffIcon else EyeIcon |}.

Definition webhookSecretRowOf (ctx : HookValues) (st : State) : SecretRow :=
  {| variableName := "NHOST_WEBHOOK_SECRET";
     valueText := webhookSecretText ctx st;
     ariaLabel := if showWebhookSecret st then "Hide Webhook Secret" else "Show Webhook Secret";
     icon := if showWebhookSecret st then EyeOffIcon else EyeIcon |}.

(** The component body: the indicator while the query loads, the query's
    error thrown to the enclosing boundary, the panel otherwise. *)
Definition render (loading : bool) (queryError : option Error)
    (ctx : HookValues) (st : State) : Error + Rendered :=
  if loading
  then inr (ActivityIndicator 1000 "Loading system environment variables...")
  else match queryError with
       | Some e => inl e
       | None =>
           inr (SettingsContainer
                  {| adminSecretRow := adminSecretRowOf ctx st;
                     webhookSecretRow := webhookSecretRowOf ctx st;
                     jwtSecretName := "NHOST_JWT_SECRET";
                     jwtSecretButton := "Show JWT Secret" |})
       end.

(** The three buttons of the panel. *)
Inductive Click : Type :=
| ClickAdminSecret
| ClickWebhookSecret
| ClickJwtSecret.

Definition onClick (ctx : HookValues) (st : State) (c : Click) : State * list Effect :=
  match c with
  | ClickAdminSecret => onClick_adminSecret st
  | ClickWebhookSecret => onClick_webhookSecret st
  | ClickJwtSecret => showJwtSecret ctx st
  end.

(** A sequence of clicks: final state and the collaborator calls, in order. *)
Fixpoint clicks (ctx : HookValues) (st : State) (cs : list Click) : State * list Effect :=
  match cs with
  | [] => (st, [])
  | c :: rest =>
      let (st', made) := onClick ctx st c in
      let (final, later) := clicks ctx st' rest in
      (final, (made ++ later)%list)
  end.

Definition isClickAdminSecret (c : Click) : bool :=
  match c with ClickAdminSecret => true | _ => false end.

Definition isClickWebhookSecret (c : Click) : bool :=
  match c with ClickWebhookSecret => true | _ => false end.

Definition isClickJwtSecret (c : Click) : bool :=
  match c with ClickJwtSecret => true | _ => false end.

(** The same hook values with another JWT secret in the query result, when
    the result holds an app. *)
Definition withJwtSecret (secret : string) (ctx : HookValues) : HookValues :=
  {| currentApplication := currentApplication ctx;
     data :=
       match data ctx with
       | Some {| app := Some a |} =>
           Some {| app := Some {| webhookSecret := webhookSecret a;
                                  hasuraGraphqlJwtSecret := secret |} |}
       | other => other
       end |}.

(** The same hook values with other admin and webhook secrets. *)
Definition withSecrets (admin webhook : string) (ctx : HookValues) : HookValues :=
  {| currentApplication :=
       match currentApplication ctx with
       | Some a => Some {| id := id a; hasuraGraphqlAdminSecret := admin |}
       | None => None
       end;
     data :=
       match data ctx with
       | Some {| app := Some a |} =>
           Some {| app := Some {| webhookSecret := webhook;
                                  hasuraGraphqlJwtSecret := hasuraGraphqlJwtSecret a |} |}
       | other => other
       end |}.

End SystemEnvironmentVariablePanel.

(** ** Sample tables

    Concrete props, query results, hooks and form values on which the
    components are run below. Raw columns are taken to be normalized already,
    types and default values are their SQL text, and a relation is identified
    by its constraint name. *)

Module Sample.

Definition column (name sqlType : string) (primary identity : bool)
  : DataGridColumn.t string string :=
  DataGridColumn.mk name sqlType "" false primary primary identity.

Definition normalize (raw : DataGridColumn.t string string)
  : DataGridColumn.t string string := raw.

(** [books(id, title, author_id)], [id] being primary and identity. *)
Definition bookColumns : list (DataGridColumn.t string string) :=
  [column "id" "int4" true true;
   column "title" "text" false false;
   column "author_id" "int4" false false].

(** A table whose columns carry neither flag. *)
Definition logColumns : list (DataGridColumn.t string string) :=
  [column "line" "text" false false; column "at" "timestamptz" false false].

Definition props : Props :=
  {| onSubmit := Some (fun _ => Resolved);
     schema := "public";
     table := NormalizedQueryDataRow.mk "books" |}.

Definition loadingQuery : TableQuery.t (DataGridColumn.t string string) string :=
  TableQuery.mk None Status.loading None.

Definition loadedQuery (cols : list (DataGridColumn.t string string))
  : TableQuery.t (DataGridColumn.t string string) string :=
  TableQuery.mk (Some (TableData.mk (Some cols) (Some ["books_author_id_fkey"])))
                Status.success None.

Definition loadFailure : Error := {| message := "permission denied" |}.
Definition updateFailure : Error := {| message := "relation already exists" |}.
Definition trackFailure : Error := {| message := "relationship not tracked" |}.

Definition failedQuery : TableQuery.t (DataGridColumn.t string string) string :=
  TableQuery.mk None Status.error (Some loadFailure).

Definition routerQuery : RouterQuery.t :=
  RouterQuery.mk (JS.QString "acme") (JS.QString "shop") (JS.QString "default").

(** Every collaborator resolves. *)
Definition healthy : @Hooks string string string :=
  {| updateTable := fun _ => Resolved;
     trackForeignKeyRelations := fun _ => Resolved;
     router_query := routerQuery;
     router_push := fun _ => Resolved |}.

(** The update mutation rejects. *)
Definition failingUpdate : @Hooks string string string :=
  {| updateTable := fun _ => Rejected updateFailure;
     trackForeignKeyRelations := fun _ => Resolved;
     router_query := routerQuery;
     router_push := fun _ => Resolved |}.

Definition SampleState : Type :=
  @State string string string (DataGridColumn.t string string).

(** The form right after mount, with the columns of [books] loaded. *)
Definition loaded : SampleState := mount props (loadedQuery bookColumns).

(** The same with a table without flagged columns. *)
Definition loadedLog : SampleState := mount props (loadedQuery logColumns).

(** The form was hydrated, a submission failed at the tracking step, and a
    later reload of the table failed. *)
Definition failed : SampleState :=
  steps normalize props (mount props loadingQuery)
        [QuerySettled (loadedQuery bookColumns);
         EffectRun;
         MutationSettled None (Some trackFailure);
         QuerySettled failedQuery].

Definition formColumns : list (FormColumn.t string string) :=
  map toFormColumn bookColumns.

(** The table renamed to [volumes], keys as loaded, one relation. *)
Definition renamed : BaseTableFormValues.t string string string :=
  BaseTableFormValues.mk "volumes" formColumns (JS.Num 0) (JS.Num 0)
                         (Some ["books_author_id_fkey"]).

(** The name kept, keys as loaded, no relation. *)
Definition unchanged : BaseTableFormValues.t string string string :=
  BaseTableFormValues.mk "books" formColumns (JS.Num 0) (JS.Num 0) (Some []).

(** No primary key selected and an identity index past the last column. *)
Definition dangling : BaseTableFormValues.t string string string :=
  BaseTableFormValues.mk "books" formColumns JS.Null (JS.Num 7) None.

Definition callbackFailure : Error := {| message := "refetch failed" |}.

(** The update resolves, the tracking mutation rejects. *)
Definition failingTracking : @Hooks string string string :=
  {| updateTable := fun _ => Resolved;
     trackForeignKeyRelations := fun _ => Rejected trackFailure;
     router_query := routerQuery;
     router_push := fun _ => Resolved |}.

(** The same table with a completion callback that rejects. *)
Definition propsFailingCallback : Props :=
  {| onSubmit := Some (fun _ => Rejected callbackFailure);
     schema := "public";
     table := NormalizedQueryDataRow.mk "books" |}.

(** The same table without a completion callback. *)
Definition propsNoCallback : Props :=
  {| onSubmit := None;
     schema := "public";
     table := NormalizedQueryDataRow.mk "books" |}.

(** The form while the table query is still loading. *)
Definition pending : SampleState := mount props loadingQuery.

(** The form is hydrated and a submission failed at the tracking step. *)
Definition trackingFailed : SampleState :=
  steps normalize props (mount props loadingQuery)
        [QuerySettled (loadedQuery bookColumns);
         EffectRun;
         MutationSettled None (Some trackFailure)].

(** The application and the settled secrets query of the settings panel. *)
Definition hookValues : SystemEnvironmentVariableSettings.HookValues :=
  {| SystemEnvironmentVariableSettings.currentApplication :=
       Some {| SystemEnvironmentVariableSettings.id := "app-1";
               SystemEnvironmentVariableSettings.hasuraGraphqlAdminSecret := "s3cr3t" |};
     SystemEnvironmentVariableSettings.data :=
       Some {| SystemEnvironmentVariableSettings.app :=
                 Some {| SystemEnvironmentVariableSettings.webhookSecret := "wh00k";
                         SystemEnvironmentVariableSettings.hasuraGraphqlJwtSecret :=
                           "{type:HS256}" |} |} |}.

(** The sample runtime: every sample rejection value is an instance of
    [Error] except [responseFailure], a plain response object. *)
Definition responseFailure : Error := {| message := "Request failed" |}.

Definition instanceofError (e : Error) : bool :=
  negb (String.eqb (message e) "Request failed").

(** The form is hydrated and the update mutation rejected with the plain
    response object. *)
Definition responseFailed : SampleState :=
  steps normalize props (mount props loadingQuery)
        [QuerySettled (loadedQuery bookColumns);
         EffectRun;
         MutationSettled (Some responseFailure) None].

(** A table query that holds an error although its status is ['success'];
    the contract [load_error_means_failed] excludes it. *)
Definition staleErrorQuery : TableQuery.t (DataGridColumn.t string string) string :=
  TableQuery.mk (Some (TableData.mk (Some bookColumns) (Some [])))
                Status.success (Some loadFailure).

Definition staleError : SampleState := mount props staleErrorQuery.

End Sample.

(** ** Facts about the JavaScript fragment *)

Lemma string_app_assoc (a b c : string) : ((a ++ b) ++ c = a ++ b ++ c)%string.
Proof.
  induction a as [|ch a IH]; simpl; [reflexivity | now rewrite IH].
Qed.

Lemma string_app_nil_r (a : string) : (a ++ "" = a)%string.
Proof.
  induction a as [|ch a IH]; simpl; [reflexivity | now rewrite IH].
Qed.

Lemma contains_suffix (before needle : string) : contains needle (before ++ needle).
Proof.
  exists before, ""%string. now rewrite string_app_nil_r.
Qed.

Lemma findIndex_from_none {A : Type} (p : A -> bool) (xs : list A) (k : Z) :
  (forall c, In c xs -> p c = false) -> JS.findIndex_from p xs k = -1.
Proof.
  revert k. induction xs as [|x rest IH]; intros k Hnone; simpl.
  - reflexivity.
  - rewrite (Hnone x (or_introl eq_refl)). apply IH.
    intros c Hc. apply Hnone. now right.
Qed.

Lemma findIndex_from_spec {A : Type} (p : A -> bool) (xs : list A) (k : Z) :
  (JS.findIndex_from p xs k = -1 /\ forall c, In c xs -> p c = false) \/
  (exists (n : nat) (c : A),
      JS.findIndex_from p xs k = k + Z.of_nat n /\ first_match p xs n c).
Proof.
  revert k. induction xs as [|x rest IH]; intros k; simpl.
  - left. split; [reflexivity | intros c []].
  - destruct (p x) eqn:Hx.
    + right. exists 0%nat, x. split; [lia |].
      repeat split; try assumption. intros j c' Hj. lia.
    + destruct (IH (k + 1)) as [[Hr Hnone] | (n & c & Hr & Hnth & Hp & Hbefore)].
      * left. split; [assumption |].
        intros c [<- | Hc]; [assumption | now apply Hnone].
      * right. exists (S n), c. split; [lia |].
        repeat split; try assumption.
        intros [|j] c' Hj Hc'; simpl in Hc'.
        -- now inversion Hc'; subst.
        -- apply (Hbefore j c'); [lia | assumption].
Qed.

Lemma index_or_null_findIndex {A : Type} (p : A -> bool) (xs : list A) :
  addresses_first p xs (index_or_null (JS.findIndex p xs)).
Proof.
  unfold JS.findIndex, index_or_null.
  destruct (findIndex_from_spec p xs 0) as [[-> Hnone] | (n & c & -> & Hfirst)].
  - simpl. exact Hnone.
  - destruct (Z.ltb_spec (-1) (0 + Z.of_nat n)) as [_ | Hlt]; [| lia].
    simpl. exists n, c. split; [lia | assumption].
Qed.

Lemma get_out_of_bounds {A : Type} (xs : list A) (i : JS.index) :
  i = JS.Null \/ i = JS.Undefined \/ out_of_bounds xs i -> JS.get xs i = None.
Proof.
  intros [-> | [-> | Hout]]; try reflexivity.
  destruct i as [| | z]; simpl in *; try contradiction.
  destruct (Z.ltb_spec z 0) as [_ | Hge]; [reflexivity |].
  apply nth_error_None. lia.
Qed.

Lemma get_in_bounds {A : Type} (xs : list A) (n : nat) (c : A) :
  nth_error xs n = Some c -> JS.get xs (JS.Num (Z.of_nat n)) = Some c.
Proof.
  intros Hn. simpl.
  destruct (Z.ltb_spec (Z.of_nat n) 0) as [Hlt | _]; [lia |].
  now rewrite Nat2Z.id.
Qed.

(** ** Properties of the table editing form *)

Section EditTableFormProperties.

Context {ColumnType DefaultValue ForeignKeyRelation RawColumn : Type}.
Variable normalizeDatabaseColumn :
  RawColumn -> DataGridColumn.t ColumnType DefaultValue.

Local Abbreviation St := (@State ColumnType DefaultValue ForeignKeyRelation RawColumn).
Local Abbreviation Values := (BaseTableFormValues.t ColumnType DefaultValue ForeignKeyRelation).
Local Abbreviation Query := (TableQuery.t RawColumn ForeignKeyRelation).
Local Abbreviation Hks := (@Hooks ColumnType DefaultValue ForeignKeyRelation).
Local Abbreviation Ev := (@Event ColumnType DefaultValue ForeignKeyRelation RawColumn).
Local Abbreviation gridColumns := (dataGridColumns normalizeDatabaseColumn).
Local Abbreviation hydrate := (useEffect_hydration normalizeDatabaseColumn).
Local Abbreviation submit := (handleSubmit normalizeDatabaseColumn).
Local Abbreviation updateVars := (updateVariables normalizeDatabaseColumn).

(** [e instanceof Error], as the rendering takes it from the runtime. *)
Variable instanceofError : Error -> bool.

Local Abbreviation view := (render instanceofError).
Local Abbreviation clear := (onClick_clear instanceofError).
Local Abbreviation instance := (errorInstance instanceofError).

(** *** The merged error slot *)

(** C7: the merged error slot is the first non-null of the metadata-load
    error, the update-mutation error and the foreign-key-tracking error, in
    that order. *)
Theorem error_first_non_null (st : St) :
  error st =
    match columnsError st, updateError st, foreignKeyError st with
    | Some e, _, _ => Some e
    | None, Some e, _ => Some e
    | None, None, third => third
    end.
Proof.
  unfold error, JS.or_else.
  destruct (columnsError st), (updateError st), (foreignKeyError st); reflexivity.
Qed.

(** [resetError] on its own: it resets the update-mutation error and the
    foreign-key-tracking error together and leaves the metadata-load error,
    the form and the latch as they were; afterwards the merged error slot is
    the metadata-load error, hence null exactly when that one is null. *)
Theorem resetError_clears_mutation_errors (st : St) :
  updateError (resetError st) = None /\
  foreignKeyError (resetError st) = None /\
  columnsError (resetError st) = columnsError st /\
  form (resetError st) = form st /\
  formInitialized (resetError st) = formInitialized st /\
  error (resetError st) = columnsError st /\
  (error (resetError st) = None <-> columnsError st = None).
Proof.
  assert (Herr : error (resetError st) = columnsError st).
  { unfold error, columnsError, JS.or_else. simpl.
    now destruct (TableQuery.error (tableQuery st)). }
  repeat split; try reflexivity; try assumption; rewrite Herr; auto.
Qed.

(** *** Hydration *)

Lemma hydrate_latched (props : Props) (st : St) :
  formInitialized st = true -> hydrate props st = st.
Proof.
  intros Hlatch. unfold useEffect_hydration.
  rewrite Hlatch. simpl. now rewrite andb_false_r.
Qed.

Lemma hydrate_first (props : Props) (st : St) :
  columnsStatus st = Status.success ->
  gridColumns st <> [] ->
  formInitialized st = false ->
  hydrate props st =
    setFormInitialized true
      (form_reset (hydratedValues normalizeDatabaseColumn props st) st).
Proof.
  intros Hstatus Hcols Hlatch. unfold useEffect_hydration.
  rewrite Hstatus, Hlatch. simpl.
  destruct (gridColumns st) as [|c rest]; [contradiction | reflexivity].
Qed.

Lemma step_keeps_latch (props : Props) (st : St) (ev : Ev) :
  formInitialized st = true ->
  formInitialized (step normalizeDatabaseColumn props st ev) = true.
Proof.
  intros Hlatch. destruct ev; simpl; try assumption.
  now rewrite hydrate_latched.
Qed.

Lemma steps_keep_latch (props : Props) (evs : list Ev) (st : St) :
  formInitialized st = true ->
  formInitialized (steps normalizeDatabaseColumn props st evs) = true.
Proof.
  revert st. unfold steps.
  induction evs as [|ev evs IH]; intros st Hlatch; simpl.
  - assumption.
  - apply IH. now apply step_keeps_latch.
Qed.

(** C3: the first successful load with a non-empty column list hydrates the
    form and sets the latch; whatever happens afterwards (edits, further
    loads, mutation results, clears, further runs of the effect), the latch
    stays set and a run of the hydration effect, also right after another
    successful load, leaves the state and so the form values as they are. *)
Theorem hydration_at_most_once (props : Props) (st : St) :
  columnsStatus st = Status.success ->
  gridColumns st <> [] ->
  formInitialized st = false ->
  let st1 := hydrate props st in
  formInitialized st1 = true /\
  form st1 = hydratedValues normalizeDatabaseColumn props st /\
  forall (evs : list Ev) (q : Query) (edit : Values),
    let st2 := steps normalizeDatabaseColumn props st1 evs in
    formInitialized st2 = true /\
    hydrate props st2 = st2 /\
    form (hydrate props (set_tableQuery q st2)) = form st2 /\
    form (hydrate props (set_tableQuery q (form_reset edit st2))) = edit.
Proof.
  intros Hstatus Hcols Hlatch st1.
  assert (H1 : formInitialized st1 = true).
  { unfold st1. now rewrite hydrate_first. }
  split; [assumption |]. split.
  { unfold st1. now rewrite hydrate_first. }
  intros evs q edit st2.
  assert (H2 : formInitialized st2 = true) by now apply steps_keep_latch.
  split; [assumption |].
  split; [now apply hydrate_latched |].
  split; now rewrite hydrate_latched.
Qed.

(** C4: on the first successful load with a non-empty normalized column
    list, the hydrated [primaryKeyIndex] is the position of the first column
    flagged primary and the hydrated [identityColumnIndex] the position of
    the first column flagged identity; when no column carries the flag the
    index is null. *)
Theorem hydration_indices (props : Props) (st : St) :
  columnsStatus st = Status.success ->
  gridColumns st <> [] ->
  formInitialized st = false ->
  let values := form (hydrate props st) in
  addresses_first DataGridColumn.isPrimary (gridColumns st)
                  (BaseTableFormValues.primaryKeyIndex values) /\
  addresses_first DataGridColumn.isIdentity (gridColumns st)
                  (BaseTableFormValues.identityColumnIndex values) /\
  ((forall c, In c (gridColumns st) -> DataGridColumn.isPrimary c = false) ->
   BaseTableFormValues.primaryKeyIndex values = JS.Null) /\
  ((forall c, In c (gridColumns st) -> DataGridColumn.isIdentity c = false) ->
   BaseTableFormValues.identityColumnIndex values = JS.Null).
Proof.
  intros Hstatus Hcols Hlatch values.
  unfold values. rewrite hydrate_first by assumption. simpl.
  repeat split.
  - apply index_or_null_findIndex.
  - apply index_or_null_findIndex.
  - intros Hnone. unfold JS.findIndex.
    now rewrite findIndex_from_none.
  - intros Hnone. unfold JS.findIndex.
    now rewrite findIndex_from_none.
Qed.

(** *** The submit handler *)

Ltac unfold_submit :=
  unfold run, handleSubmit, try_catch, handleSubmit_body,
         bind, await, perform, ret, updateVariables, trackVariables in *;
  cbn [DatabaseTable.foreignKeyRelations DatabaseTable.name deriveUpdatedTable] in *.

Ltac submit_cases :=
  repeat match goal with
    | H : ?x = _ |- context [match ?x with _ => _ end] => rewrite H
    | |- context [match ?o with Resolved => _ | Rejected _ => _ end] =>
        destruct o eqn:?
    | |- context [match ?o with Some _ => _ | None => _ end] =>
        destruct o eqn:?
    | |- context [if ?b then _ else _] => destruct b eqn:?
    end.

(** The handler never throws: the [catch] clause absorbs every rejection. *)
Lemma submit_never_throws (props : Props) (hooks : Hks) (st : St) (values : Values) :
  snd (run (submit props hooks st values)) = inr tt.
Proof.
  unfold_submit. submit_cases; reflexivity.
Qed.

(** The update mutation is always the first call, and the only one of its kind. *)
Lemma submit_starts_with_update
    (props : Props) (hooks : Hks) (st : St) (values : Values) :
  (exists rest,
      fst (run (submit props hooks st values)) =
        UpdateTable (updateVars props st values) :: rest) /\
  calls isUpdateTable (fst (run (submit props hooks st values))) =
    [UpdateTable (updateVars props st values)].
Proof.
  unfold_submit. submit_cases; simpl; split; eauto.
Qed.

(** C2: when the update mutation rejects, the handler makes no further
    call (no foreign-key tracking, no completion callback, no navigation, no
    success notification) and completes normally: the rejection is absorbed
    by the handler and not thrown again. *)
Theorem handleSubmit_update_rejected
    (props : Props) (hooks : Hks) (st : St) (values : Values) (e : Error) :
  updateTable hooks (updateVars props st values) = Rejected e ->
  let log := fst (run (submit props hooks st values)) in
  log = [UpdateTable (updateVars props st values)] /\
  calls isTrackForeignKeyRelations log = [] /\
  calls isOnSubmit log = [] /\
  calls isRouterPush log = [] /\
  calls isTriggerToast log = [] /\
  snd (run (submit props hooks st values)) = inr tt.
Proof.
  intros Hrejected log.
  assert (Hlog : log = [UpdateTable (updateVars props st values)]).
  { unfold log. unfold_submit. now rewrite Hrejected. }
  rewrite Hlog. repeat split. apply submit_never_throws.
Qed.

(** C5: with an empty (or absent) relation set the tracking mutation is
    never invoked; with one or more relations and a successful update it is
    invoked exactly once, with the relations, the schema and the name of the
    updated table. *)
Theorem tracking_only_for_relations
    (props : Props) (hooks : Hks) (st : St) (values : Values) :
  let log := fst (run (submit props hooks st values)) in
  (BaseTableFormValues.foreignKeyRelations values = None \/
   BaseTableFormValues.foreignKeyRelations values = Some [] ->
   calls isTrackForeignKeyRelations log = []) /\
  (forall relations : list ForeignKeyRelation,
      BaseTableFormValues.foreignKeyRelations values = Some relations ->
      relations <> [] ->
      updateTable hooks (updateVars props st values) = Resolved ->
      calls isTrackForeignKeyRelations log =
        [TrackForeignKeyRelations
           (TrackForeignKeyRelationsVariables.mk
              (Some relations) (schema props) (BaseTableFormValues.name values))]).
Proof.
  intros log. unfold log. split.
  - intros Hempty. unfold_submit.
    destruct Hempty as [-> | ->]; simpl; submit_cases; reflexivity.
  - intros relations Hrel Hne Hupdated. unfold_submit.
    rewrite Hupdated, Hrel.
    destruct relations as [|r relations]; [contradiction |].
    simpl. submit_cases; reflexivity.
Qed.

(** C6: when the update, the tracking (if invoked) and the completion
    callback (if supplied) succeed, the router is asked to navigate if and
    only if the submitted name differs from the original one; it is then
    asked exactly once, for the browser path that ends in the new name; with
    an unchanged name no navigation call is made. *)
Theorem navigation_iff_renamed
    (props : Props) (hooks : Hks) (st : St) (values : Values) :
  updateTable hooks (updateVars props st values) = Resolved ->
  (JS.nonempty (BaseTableFormValues.foreignKeyRelations values) = true ->
   trackForeignKeyRelations hooks (trackVariables props values) = Resolved) ->
  (forall callback, onSubmit props = Some callback -> callback tt = Resolved) ->
  let log := fst (run (submit props hooks st values)) in
  let original := NormalizedQueryDataRow.table_name (table props) in
  let submitted := BaseTableFormValues.name values in
  ((exists url, In (RouterPush url) log) <-> original <> submitted) /\
  (original <> submitted ->
   calls isRouterPush log = [RouterPush (browserPath hooks props submitted)]) /\
  (original = submitted -> calls isRouterPush log = []) /\
  (forall url, In (RouterPush url) log -> contains submitted url).
Proof.
  intros Hupdated Htracked Hcallback log original submitted.
  assert (Hpath : contains submitted (browserPath hooks props submitted)).
  { unfold browserPath.
    repeat rewrite <- string_app_assoc. apply contains_suffix. }
  assert (Hcases :
    (original <> submitted /\
     calls isRouterPush log = [RouterPush (browserPath hooks props submitted)]) \/
    (original = submitted /\ calls isRouterPush log = [])).
  { unfold log, original, submitted. unfold_submit. rewrite Hupdated.
    destruct (JS.nonempty (BaseTableFormValues.foreignKeyRelations values)) eqn:Hfk;
      [rewrite (Htracked eq_refl) |];
      (destruct (onSubmit props) as [callback|] eqn:Hcb;
       [rewrite (Hcallback callback eq_refl) |]);
      (destruct (String.eqb_spec
                   (NormalizedQueryDataRow.table_name (table props))
                   (BaseTableFormValues.name values)) as [Heq | Hneq]; simpl;
       [ right; split; [assumption | reflexivity]
       | left; split; [assumption |]; submit_cases; reflexivity ]). }
  assert (Hin : forall url, In (RouterPush url) log ->
                            In (RouterPush url) (calls isRouterPush log)).
  { intros url Hurl. apply filter_In. split; [assumption | reflexivity]. }
  destruct Hcases as [[Hneq Hcalls] | [Heq Hcalls]].
  - repeat split.
    + intros _. assumption.
    + intros _. exists (browserPath hooks props submitted).
      assert (Hmem : In (RouterPush (browserPath hooks props submitted))
                        (calls isRouterPush log)).
      { rewrite Hcalls. now left. }
      apply filter_In in Hmem. apply Hmem.
    + intros _. assumption.
    + intros Heq. contradiction.
    + intros url Hurl. apply Hin in Hurl. rewrite Hcalls in Hurl.
      destruct Hurl as [Hurl | []]. inversion Hurl; subst. assumption.
  - repeat split.
    + intros [url Hurl]. apply Hin in Hurl. rewrite Hcalls in Hurl. destruct Hurl.
    + intros Hneq. contradiction.
    + intros Hneq. contradiction.
    + intros _. assumption.
    + intros url Hurl. apply Hin in Hurl. rewrite Hcalls in Hurl. destruct Hurl.
Qed.

(** C8: the updated table handed to the update mutation names the primary
    key and the identity column: [primaryKey] is the name of the form column
    at [primaryKeyIndex], [identityColumn] the name of the form column at
    [identityColumnIndex], absent when that index is null or undefined. Both
    fields are names, never positions. *)
Theorem updatedTable_carries_names
    (props : Props) (hooks : Hks) (st : St) (values : Values) :
  let log := fst (run (submit props hooks st values)) in
  let sent := UpdateTableVariables.updatedTable (updateVars props st values) in
  let cols := BaseTableFormValues.columns values in
  calls isUpdateTable log = [UpdateTable (updateVars props st values)] /\
  sent = deriveUpdatedTable values /\
  DatabaseTable.primaryKey sent =
    JS.chain (JS.get cols (BaseTableFormValues.primaryKeyIndex values)) FormColumn.name /\
  (forall (n : nat) (c : FormColumn.t ColumnType DefaultValue),
      BaseTableFormValues.primaryKeyIndex values = JS.Num (Z.of_nat n) ->
      nth_error cols n = Some c ->
      DatabaseTable.primaryKey sent = Some (FormColumn.name c)) /\
  (forall (n : nat) (c : FormColumn.t ColumnType DefaultValue),
      BaseTableFormValues.identityColumnIndex values = JS.Num (Z.of_nat n) ->
      nth_error cols n = Some c ->
      DatabaseTable.identityColumn sent = Some (FormColumn.name c)) /\
  (BaseTableFormValues.identityColumnIndex values = JS.Null \/
   BaseTableFormValues.identityColumnIndex values = JS.Undefined ->
   DatabaseTable.identityColumn sent = None).
Proof.
  intros log sent cols.
  split; [apply submit_starts_with_update |].
  split; [reflexivity |]. split; [reflexivity |].
  unfold sent, cols. cbn [updateVariables UpdateTableVariables.updatedTable
                          deriveUpdatedTable DatabaseTable.primaryKey
                          DatabaseTable.identityColumn].
  repeat split.
  - intros n c -> Hnth. now rewrite (get_in_bounds _ _ _ Hnth).
  - intros n c -> Hnth. now rewrite (get_in_bounds _ _ _ Hnth).
  - intros [-> | ->]; reflexivity.
Qed.

(** C10: deriving the updated table cannot fail on the index fields: a
    [primaryKeyIndex] that is null or outside the columns array gives an
    absent [primaryKey], an [identityColumnIndex] outside the array gives an
    absent [identityColumn], and the handler goes on to call the update
    mutation with the derived table. *)
Theorem deriveUpdatedTable_total
    (props : Props) (hooks : Hks) (st : St) (values : Values) :
  let cols := BaseTableFormValues.columns values in
  (BaseTableFormValues.primaryKeyIndex values = JS.Null \/
   out_of_bounds cols (BaseTableFormValues.primaryKeyIndex values) ->
   DatabaseTable.primaryKey (deriveUpdatedTable values) = None) /\
  (out_of_bounds cols (BaseTableFormValues.identityColumnIndex values) ->
   DatabaseTable.identityColumn (deriveUpdatedTable values) = None) /\
  (exists rest,
      fst (run (submit props hooks st values)) =
        UpdateTable (updateVars props st values) :: rest) /\
  UpdateTableVariables.updatedTable (updateVars props st values) =
    deriveUpdatedTable values.
Proof.
  intros cols. unfold cols. repeat split.
  - intros Hidx. cbn [deriveUpdatedTable DatabaseTable.primaryKey].
    rewrite get_out_of_bounds; [reflexivity | tauto].
  - intros Hidx. cbn [deriveUpdatedTable DatabaseTable.identityColumn].
    rewrite get_out_of_bounds by tauto.
    now destruct (BaseTableFormValues.identityColumnIndex values).
  - apply submit_starts_with_update.
Qed.

(** *** Further properties of the submit handler *)

(** X1: whichever collaborator rejects, the handler completes normally. *)
Theorem handleSubmit_absorbs_every_rejection
    (props : Props) (hooks : Hks) (st : St) (values : Values) :
  snd (run (submit props hooks st values)) = inr tt.
Proof.
  unfold_submit. submit_cases; reflexivity.
Qed.

(** X2: the calls of a submission follow the order update, tracking, completion
    callback, navigation, notification, each made at most once. *)
Theorem handleSubmit_call_order
    (props : Props) (hooks : Hks) (st : St) (values : Values) :
  increasing (map rank (fst (run (submit props hooks st values)))) = true.
Proof.
  unfold_submit. submit_cases; reflexivity.
Qed.

(** X3: the success notification is emitted exactly when every collaborator the
    submission reaches resolves; it is then the last call, made once. *)
Theorem toast_iff_all_resolved
    (props : Props) (hooks : Hks) (st : St) (values : Values) :
  let log := fst (run (submit props hooks st values)) in
  let toast := TriggerToast "The table has been updated successfully." in
  if allResolved normalizeDatabaseColumn props hooks st values
  then calls isTriggerToast log = [toast] /\ hd_error (rev log) = Some toast
  else calls isTriggerToast log = [].
Proof.
  cbv zeta. unfold allResolved, resolved. unfold_submit.
  destruct (updateTable hooks _); [| reflexivity].
  destruct (JS.nonempty (BaseTableFormValues.foreignKeyRelations values));
    cbn [negb orb andb];
    [destruct (trackForeignKeyRelations hooks _); [| reflexivity] |];
    (destruct (onSubmit props) as [callback|];
     [destruct (callback tt); [| reflexivity] |]);
    (destruct (String.eqb _ _); cbn [negb orb andb];
     [| destruct (router_push hooks _)]);
    (split; reflexivity) || reflexivity.
Qed.

(** X4: a rejection of the tracking mutation, after a successful update, ends
    the submission there: the log holds the update and the tracking call
    only, and nothing is undone. *)
Theorem tracking_rejected_aborts
    (props : Props) (hooks : Hks) (st : St) (values : Values) (e : Error) :
  updateTable hooks (updateVars props st values) = Resolved ->
  JS.nonempty (BaseTableFormValues.foreignKeyRelations values) = true ->
  trackForeignKeyRelations hooks (trackVariables props values) = Rejected e ->
  run (submit props hooks st values) =
    ([UpdateTable (updateVars props st values);
      TrackForeignKeyRelations (trackVariables props values)], inr tt).
Proof.
  intros Hupdated Hfk Hrejected. unfold_submit.
  now rewrite Hupdated, Hfk, Hrejected.
Qed.

(** X5: a rejection of the completion callback, after the mutations succeeded,
    prevents both the navigation and the success notification. *)
Theorem callback_rejected_aborts
    (props : Props) (hooks : Hks) (st : St) (values : Values)
    (callback : unit -> Outcome) (e : Error) :
  updateTable hooks (updateVars props st values) = Resolved ->
  (JS.nonempty (BaseTableFormValues.foreignKeyRelations values) = true ->
   trackForeignKeyRelations hooks (trackVariables props values) = Resolved) ->
  onSubmit props = Some callback ->
  callback tt = Rejected e ->
  let log := fst (run (submit props hooks st values)) in
  calls isOnSubmit log = [OnSubmit] /\
  calls isRouterPush log = [] /\
  calls isTriggerToast log = [] /\
  snd (run (submit props hooks st values)) = inr tt.
Proof.
  intros Hupdated Htracked Hcb Hrejected. cbv zeta. unfold_submit.
  rewrite Hupdated, Hcb, Hrejected.
  destruct (JS.nonempty (BaseTableFormValues.foreignKeyRelations values));
    [rewrite (Htracked eq_refl) |]; repeat split.
Qed.

(** X6: without a completion callback none is called; with one, it is called
    exactly once as soon as the mutations before it succeeded. *)
Theorem callback_only_when_supplied
    (props : Props) (hooks : Hks) (st : St) (values : Values) :
  let log := fst (run (submit props hooks st values)) in
  (onSubmit props = None -> calls isOnSubmit log = []) /\
  (forall callback,
      onSubmit props = Some callback ->
      updateTable hooks (updateVars props st values) = Resolved ->
      (JS.nonempty (BaseTableFormValues.foreignKeyRelations values) = true ->
       trackForeignKeyRelations hooks (trackVariables props values) = Resolved) ->
      calls isOnSubmit log = [OnSubmit]).
Proof.
  cbv zeta. split.
  - intros Hnone. unfold_submit. rewrite Hnone. submit_cases; reflexivity.
  - intros callback Hcb Hupdated Htracked. unfold_submit.
    rewrite Hupdated, Hcb.
    destruct (JS.nonempty (BaseTableFormValues.foreignKeyRelations values));
      [rewrite (Htracked eq_refl) |]; submit_cases; reflexivity.
Qed.

(** *** Further properties of the hydration *)

(** X7: the effect does nothing unless the load succeeded with at least one
    column: while loading, after a failed load, and for an absent or empty
    column list, form and latch stay as they are. *)
Theorem hydration_skipped (props : Props) (st : St) :
  columnsStatus st <> Status.success \/ gridColumns st = [] ->
  hydrate props st = st.
Proof.
  intros [Hstatus | Hempty]; unfold useEffect_hydration.
  - destruct (columnsStatus st); try reflexivity. contradiction.
  - rewrite Hempty. simpl. now rewrite andb_false_r.
Qed.

(** X8: running the effect twice in a row is the same as running it once. *)
Theorem hydration_idempotent (props : Props) (st : St) :
  hydrate props (hydrate props st) = hydrate props st.
Proof.
  destruct (Status.eqb (columnsStatus st) Status.success
            && (0 <? Z.of_nat (length (gridColumns st)))
            && negb (formInitialized st)) eqn:Hguard.
  - assert (Hrun : hydrate props st =
                   setFormInitialized true
                     (form_reset (hydratedValues normalizeDatabaseColumn props st) st)).
    { unfold useEffect_hydration. now rewrite Hguard. }
    rewrite Hrun. now apply hydrate_latched.
  - assert (Hskip : hydrate props st = st).
    { unfold useEffect_hydration. now rewrite Hguard. }
    now rewrite !Hskip.
Qed.

Lemma first_match_find {A : Type} (p : A -> bool) (xs : list A) (n : nat) (c : A) :
  first_match p xs n c -> find p xs = Some c.
Proof.
  revert n. induction xs as [|x rest IH]; intros n (Hnth & Hp & Hbefore).
  - destruct n; discriminate.
  - destruct n as [|n]; simpl in *.
    + inversion Hnth; subst. now rewrite Hp.
    + rewrite (Hbefore 0%nat x); [| lia | reflexivity].
      apply (IH n). repeat split; try assumption.
      intros j c' Hj Hc'. apply (Hbefore (S j) c'); [lia | assumption].
Qed.

Lemma find_all_false {A : Type} (p : A -> bool) (xs : list A) :
  (forall c, In c xs -> p c = false) -> find p xs = None.
Proof.
  induction xs as [|x rest IH]; intros Hnone; simpl.
  - reflexivity.
  - rewrite (Hnone x (or_introl eq_refl)). apply IH.
    intros c Hc. apply Hnone. now right.
Qed.

(** Reading the mapped array at the index the hydration stores gives the
    image of the first element found. *)
Lemma get_hydrated_index {A B : Type} (p : A -> bool) (f : A -> B) (xs : list A) :
  JS.get (map f xs) (index_or_null (JS.findIndex p xs)) = option_map f (find p xs).
Proof.
  pose proof (index_or_null_findIndex p xs) as Haddr.
  destruct (index_or_null (JS.findIndex p xs)) as [| | z]; simpl in Haddr.
  - now rewrite find_all_false.
  - contradiction.
  - destruct Haddr as (n & c & -> & Hfirst).
    rewrite (first_match_find _ _ _ _ Hfirst).
    apply get_in_bounds. destruct Hfirst as (Hnth & _).
    now apply map_nth_error.
Qed.

(** X9: hydrating and submitting without an edit sends the table back under its
    own name, the columns under their identifiers, and names as primary key
    and identity column the first column flagged so, none when no column is
    flagged. *)
Theorem hydrated_submit_names (props : Props) (st : St) :
  columnsStatus st = Status.success ->
  gridColumns st <> [] ->
  formInitialized st = false ->
  let sent := deriveUpdatedTable (form (hydrate props st)) in
  DatabaseTable.name sent = NormalizedQueryDataRow.table_name (table props) /\
  map FormColumn.name (DatabaseTable.columns sent) =
    map DataGridColumn.id (gridColumns st) /\
  map FormColumn.id (DatabaseTable.columns sent) =
    map DataGridColumn.id (gridColumns st) /\
  DatabaseTable.primaryKey sent =
    option_map DataGridColumn.id (find DataGridColumn.isPrimary (gridColumns st)) /\
  DatabaseTable.identityColumn sent =
    option_map DataGridColumn.id (find DataGridColumn.isIdentity (gridColumns st)) /\
  DatabaseTable.foreignKeyRelations sent = foreignKeyRelations st.
Proof.
  intros Hstatus Hcols Hlatch sent. unfold sent.
  rewrite hydrate_first by assumption.
  cbn [setFormInitialized form_reset form hydratedValues deriveUpdatedTable
       DatabaseTable.name DatabaseTable.columns DatabaseTable.primaryKey
       DatabaseTable.identityColumn DatabaseTable.foreignKeyRelations
       BaseTableFormValues.name BaseTableFormValues.columns
       BaseTableFormValues.primaryKeyIndex BaseTableFormValues.identityColumnIndex
       BaseTableFormValues.foreignKeyRelations].
  assert (Hname : forall p,
    JS.chain (JS.get (map toFormColumn (gridColumns st))
                     (index_or_null (JS.findIndex p (gridColumns st))))
             FormColumn.name =
    option_map DataGridColumn.id (find p (gridColumns st))).
  { intros p. rewrite get_hydrated_index.
    now destruct (find p (gridColumns st)). }
  repeat split.
  - rewrite map_map. reflexivity.
  - rewrite map_map. reflexivity.
  - apply Hname.
  - rewrite <- Hname.
    now destruct (index_or_null (JS.findIndex DataGridColumn.isIdentity (gridColumns st))).
Qed.

Lemma step_keeps_name (props : Props) (st : St) (ev : Ev) :
  isUserEdit ev = false ->
  BaseTableFormValues.name (form st) = NormalizedQueryDataRow.table_name (table props) ->
  BaseTableFormValues.name (form (step normalizeDatabaseColumn props st ev)) =
    NormalizedQueryDataRow.table_name (table props).
Proof.
  intros Hev Hname. destruct ev; simpl; try assumption; try discriminate.
  unfold useEffect_hydration.
  destruct (Status.eqb (columnsStatus st) Status.success
            && (0 <? Z.of_nat (length (gridColumns st)))
            && negb (formInitialized st)); [reflexivity | assumption].
Qed.

Lemma steps_keep_name (props : Props) (evs : list Ev) (st : St) :
  forallb (fun ev => negb (isUserEdit ev)) evs = true ->
  BaseTableFormValues.name (form st) = NormalizedQueryDataRow.table_name (table props) ->
  BaseTableFormValues.name (form (steps normalizeDatabaseColumn props st evs)) =
    NormalizedQueryDataRow.table_name (table props).
Proof.
  revert st. unfold steps.
  induction evs as [|ev evs IH]; intros st Hevs Hname; simpl in *.
  - assumption.
  - apply andb_true_iff in Hevs. destruct Hevs as [Hev Hevs].
    apply IH; [assumption |].
    apply step_keeps_name; [| assumption].
    now apply negb_true_iff.
Qed.

Lemma same_name_never_pushes
    (props : Props) (hooks : Hks) (st : St) (values : Values) :
  BaseTableFormValues.name values = NormalizedQueryDataRow.table_name (table props) ->
  calls isRouterPush (fst (run (submit props hooks st values))) = [].
Proof.
  intros Hname. unfold_submit. rewrite Hname, String.eqb_refl.
  cbn [negb]. submit_cases; reflexivity.
Qed.

(** X10: from mount on, as long as the user has not edited the form, it holds the
    table's own name, whatever was loaded and whichever effects ran, and
    submitting it never navigates. *)
Theorem navigation_requires_an_edit
    (props : Props) (q : Query) (evs : list Ev) (hooks : Hks) :
  forallb (fun ev => negb (isUserEdit ev)) evs = true ->
  let st := steps normalizeDatabaseColumn props (mount props q) evs in
  BaseTableFormValues.name (form st) = NormalizedQueryDataRow.table_name (table props) /\
  calls isRouterPush (fst (run (submit props hooks st (form st)))) = [].
Proof.
  intros Hevs st.
  assert (Hname : BaseTableFormValues.name (form st) =
                  NormalizedQueryDataRow.table_name (table props)).
  { unfold st. now apply steps_keep_name. }
  split; [assumption | now apply same_name_never_pushes].
Qed.

(** *** The rendered form *)

Lemma error_after_reset (st : St) : error (resetError st) = columnsError st.
Proof.
  unfold error, columnsError, JS.or_else. simpl.
  now destruct (TableQuery.error (tableQuery st)).
Qed.

(** What makes the button clickable, and what the click does. *)
Lemma clear_inversion (st st' : St) :
  clear st = Some st' ->
  Status.eqb (columnsStatus st) Status.loading = false /\
  Status.eqb (columnsStatus st) Status.error = false /\
  (exists e, error st = Some e /\ instanceofError e = true) /\
  st' = resetError st.
Proof.
  unfold onClick_clear, render, errorInstance.
  destruct (Status.eqb (columnsStatus st) Status.loading); [discriminate |].
  destruct (Status.eqb (columnsStatus st) Status.error); [discriminate |].
  destruct (error st) as [e|]; [| discriminate].
  destruct (instanceofError e) eqn:Hinstance; [| discriminate].
  intros Hclick. inversion Hclick. repeat split. now exists e.
Qed.

Lemma view_after_reset (st : St) :
  Status.eqb (columnsStatus st) Status.loading = false ->
  Status.eqb (columnsStatus st) Status.error = false ->
  view (resetError st) =
    FormProvider (JS.chain (instance (columnsError st)) message) "Save".
Proof.
  intros Hloading Herror. unfold render.
  replace (columnsStatus (resetError st)) with (columnsStatus st) by reflexivity.
  now rewrite Hloading, Herror, error_after_reset.
Qed.


(** X11: the "Clear" button is offered exactly when the load is neither
    pending nor failed and the merged error is an instance of [Error]. *)
Theorem clear_offered_iff (st : St) :
  clear st <> None <->
  columnsStatus st <> Status.loading /\
  columnsStatus st <> Status.error /\
  exists e, error st = Some e /\ instanceofError e = true.
Proof.
  split.
  - intros Hoffered. destruct (clear st) as [st'|] eqn:Hclick; [| contradiction].
    destruct (clear_inversion st st' Hclick) as (Hloading & Herror & Hinstance & _).
    repeat split; try assumption; intros Hstatus; rewrite Hstatus in *; discriminate.
  - intros (Hloading & Herror & e & Hslot & Hinstance).
    unfold onClick_clear, render, errorInstance.
    rewrite Hslot, Hinstance.
    destruct (columnsStatus st); simpl; congruence.
Qed.

(** X12: after a click on "Clear" the form is still shown; its alert shows
    the load error when the table query holds an instance of [Error] and is
    gone otherwise; clearing again changes nothing, and form values and
    latch are untouched. *)
Theorem clear_dismisses_iff (st st' : St) :
  clear st = Some st' ->
  view st' = FormProvider (JS.chain (instance (columnsError st)) message) "Save" /\
  (view st' = FormProvider None "Save" <-> instance (columnsError st) = None) /\
  resetError st' = st' /\
  form st' = form st /\
  formInitialized st' = formInitialized st.
Proof.
  intros Hclick.
  destruct (clear_inversion st st' Hclick) as (Hloading & Herror & _ & ->).
  rewrite (view_after_reset st Hloading Herror).
  repeat split.
  - intros H. inversion H as [Hnone].
    destruct (instance (columnsError st)); [discriminate | reflexivity].
  - intros ->. reflexivity.
Qed.

(** X13: while the load is pending or has failed, the output depends on the
    table query alone: mutation errors, form values and latch are not shown,
    and no "Clear" button is offered. *)
Theorem mutation_errors_hidden_until_loaded
    (st : St) (latch : bool) (held : Values) (u f : option Error) :
  columnsStatus st = Status.loading \/ columnsStatus st = Status.error ->
  view (mkState latch held (tableQuery st) u f) = view st /\
  clear (mkState latch held (tableQuery st) u f) = None.
Proof.
  intros Hstatus. unfold onClick_clear, render, columnsStatus, columnsError in *.
  simpl. destruct Hstatus as [-> | ->]; simpl; split; reflexivity.
Qed.

End EditTableFormProperties.

(** ** The form on the sample tables *)

Module SampleRuns.

Import Sample.

Example hydrated_books :
  form (useEffect_hydration normalize props loaded) =
    BaseTableFormValues.mk "books" formColumns (JS.Num 0) (JS.Num 0)
                           (Some ["books_author_id_fkey"]).
Proof. reflexivity. Qed.

Example hydrated_log_indices :
  let values := form (useEffect_hydration normalize props loadedLog) in
  BaseTableFormValues.primaryKeyIndex values = JS.Null /\
  BaseTableFormValues.identityColumnIndex values = JS.Null.
Proof. split; reflexivity. Qed.

Example submit_renamed_calls :
  map (fun c => (isUpdateTable c, isTrackForeignKeyRelations c, isOnSubmit c,
                 isRouterPush c, isTriggerToast c))
      (fst (run (handleSubmit normalize props healthy loaded renamed))) =
    [(true, false, false, false, false);
     (false, true, false, false, false);
     (false, false, true, false, false);
     (false, false, false, true, false);
     (false, false, false, false, true)].
Proof. reflexivity. Qed.

Example submit_unchanged_calls :
  map (fun c => (isUpdateTable c, isTrackForeignKeyRelations c, isOnSubmit c,
                 isRouterPush c, isTriggerToast c))
      (fst (run (handleSubmit normalize props healthy loaded unchanged))) =
    [(true, false, false, false, false);
     (false, false, true, false, false);
     (false, false, false, false, true)].
Proof. reflexivity. Qed.

Example submit_renamed_path :
  calls isRouterPush (fst (run (handleSubmit normalize props healthy loaded renamed))) =
    [RouterPush "/acme/shop/database/browser/default/public/volumes"].
Proof. reflexivity. Qed.

Example dangling_names :
  DatabaseTable.primaryKey (deriveUpdatedTable dangling) = None /\
  DatabaseTable.identityColumn (deriveUpdatedTable dangling) = None.
Proof. split; reflexivity. Qed.

(** A direct call of [resetError] after a failed reload, where no "Clear"
    button is rendered: the tracking error goes, the load error stays. *)
Lemma resetError_keeps_load_error :
  columnsError failed = Some loadFailure /\
  foreignKeyError failed = Some trackFailure /\
  foreignKeyError (resetError failed) = None /\
  columnsError (resetError failed) = Some loadFailure /\
  error (resetError failed) = Some loadFailure /\
  error (resetError failed) <> None.
Proof.
  repeat split; discriminate.
Qed.

(** The rename of [books] with a rejecting update mutation: one call, no throw. *)
Lemma handleSubmit_update_rejected_witness :
  updateTable failingUpdate (updateVariables normalize props loaded renamed) =
    Rejected updateFailure /\
  fst (run (handleSubmit normalize props failingUpdate loaded renamed)) =
    [UpdateTable (updateVariables normalize props loaded renamed)] /\
  snd (run (handleSubmit normalize props failingUpdate loaded renamed)) = inr tt.
Proof.
  split; [reflexivity |].
  pose proof (handleSubmit_update_rejected normalize props failingUpdate loaded
                renamed updateFailure eq_refl) as H.
  split; [apply H | apply H].
Defined.

(** After hydration, an edit followed by a reload of another column list and a
    further successful load leaves the edited form in place. *)
Lemma hydration_at_most_once_witness :
  columnsStatus loaded = Status.success /\
  dataGridColumns normalize loaded <> [] /\
  formInitialized loaded = false /\
  let st1 := useEffect_hydration normalize props loaded in
  let st2 :=
    steps normalize props st1
          [UserEdit renamed; QuerySettled (loadedQuery logColumns); EffectRun] in
  formInitialized st2 = true /\
  form (useEffect_hydration normalize props
          (set_tableQuery (loadedQuery bookColumns) st2)) = form st2.
Proof.
  split; [reflexivity |]. split; [discriminate |]. split; [reflexivity |].
  intros st1 st2.
  assert (Hcols : dataGridColumns normalize loaded <> []) by discriminate.
  destruct (hydration_at_most_once normalize props loaded eq_refl Hcols eq_refl)
    as (_ & _ & Hlater).
  destruct (Hlater
              [UserEdit renamed; QuerySettled (loadedQuery logColumns); EffectRun]
              (loadedQuery bookColumns) unchanged) as (Hlatch & _ & Hform & _).
  split; [exact Hlatch | exact Hform].
Defined.

(** [books] hydrates with its first column as primary key; the table without
    flagged columns hydrates with a null primary key index. *)
Lemma hydration_indices_witness :
  (columnsStatus loaded = Status.success /\
   dataGridColumns normalize loaded <> [] /\
   formInitialized loaded = false /\
   addresses_first DataGridColumn.isPrimary (dataGridColumns normalize loaded)
     (BaseTableFormValues.primaryKeyIndex
        (form (useEffect_hydration normalize props loaded)))) /\
  ((forall c, In c (dataGridColumns normalize loadedLog) ->
              DataGridColumn.isPrimary c = false) /\
   BaseTableFormValues.primaryKeyIndex
     (form (useEffect_hydration normalize props loadedLog)) = JS.Null).
Proof.
  assert (Hbooks : dataGridColumns normalize loaded <> []) by discriminate.
  assert (Hlog : dataGridColumns normalize loadedLog <> []) by discriminate.
  assert (Hnone : forall c, In c (dataGridColumns normalize loadedLog) ->
                            DataGridColumn.isPrimary c = false).
  { intros c [<- | [<- | []]]; reflexivity. }
  split.
  - split; [reflexivity |]. split; [exact Hbooks |]. split; [reflexivity |].
    exact (proj1 (hydration_indices normalize props loaded eq_refl Hbooks eq_refl)).
  - split; [exact Hnone |].
    destruct (hydration_indices normalize props loadedLog eq_refl Hlog eq_refl)
      as (_ & _ & Hnull & _).
    exact (Hnull Hnone).
Defined.

(** No tracking call without relations; one tracking call for the renamed
    table with its single relation. *)
Lemma tracking_only_for_relations_witness :
  (BaseTableFormValues.foreignKeyRelations unchanged = Some [] /\
   calls isTrackForeignKeyRelations
     (fst (run (handleSubmit normalize props healthy loaded unchanged))) = []) /\
  (BaseTableFormValues.foreignKeyRelations renamed = Some ["books_author_id_fkey"] /\
   updateTable healthy (updateVariables normalize props loaded renamed) = Resolved /\
   calls isTrackForeignKeyRelations
     (fst (run (handleSubmit normalize props healthy loaded renamed))) =
     [TrackForeignKeyRelations
        (TrackForeignKeyRelationsVariables.mk
           (Some ["books_author_id_fkey"]) "public" "volumes")]).
Proof.
  split.
  - split; [reflexivity |].
    apply (tracking_only_for_relations normalize props healthy loaded unchanged).
    right. reflexivity.
  - split; [reflexivity |]. split; [reflexivity |].
    apply (proj2 (tracking_only_for_relations normalize props healthy loaded renamed)
                 ["books_author_id_fkey"] eq_refl);
      [discriminate | reflexivity].
Defined.

(** Renaming [books] to [volumes] navigates once, to a path containing [volumes]. *)
Lemma navigation_iff_renamed_witness :
  updateTable healthy (updateVariables normalize props loaded renamed) = Resolved /\
  NormalizedQueryDataRow.table_name (table props) <> BaseTableFormValues.name renamed /\
  calls isRouterPush
    (fst (run (handleSubmit normalize props healthy loaded renamed))) =
    [RouterPush (browserPath healthy props "volumes")] /\
  contains "volumes" (browserPath healthy props "volumes").
Proof.
  assert (Hneq : NormalizedQueryDataRow.table_name (table props)
                 <> BaseTableFormValues.name renamed) by discriminate.
  assert (Hcb : forall callback,
             onSubmit props = Some callback -> callback tt = Resolved).
  { intros callback Hsome. inversion Hsome. reflexivity. }
  destruct (navigation_iff_renamed normalize props healthy loaded renamed
              eq_refl (fun _ => eq_refl) Hcb) as (_ & Hpush & _ & Hcontains).
  split; [reflexivity |]. split; [exact Hneq |].
  split; [exact (Hpush Hneq) |].
  apply Hcontains. simpl. tauto.
Defined.

(** Index 0 is sent as the name [id]; the null identity index of the default
    form values is sent as an absent identity column. *)
Lemma updatedTable_carries_names_witness :
  BaseTableFormValues.primaryKeyIndex renamed = JS.Num (Z.of_nat 0) /\
  BaseTableFormValues.identityColumnIndex dangling = JS.Num 7 /\
  BaseTableFormValues.identityColumnIndex
    (defaultValues (ColumnType := string) (DefaultValue := string)
                   (ForeignKeyRelation := string) props) = JS.Null /\
  DatabaseTable.primaryKey
    (UpdateTableVariables.updatedTable
       (updateVariables normalize props loaded renamed)) = Some "id" /\
  DatabaseTable.identityColumn
    (UpdateTableVariables.updatedTable
       (updateVariables normalize props loaded (defaultValues props))) = None.
Proof.
  split; [reflexivity |]. split; [reflexivity |]. split; [reflexivity |].
  split.
  - destruct (updatedTable_carries_names normalize props healthy loaded renamed)
      as (_ & _ & _ & Hprimary & _).
    exact (Hprimary 0%nat (toFormColumn (column "id" "int4" true true))
                    eq_refl eq_refl).
  - destruct (updatedTable_carries_names normalize props healthy loaded
                (defaultValues props)) as (_ & _ & _ & _ & _ & Habsent).
    apply Habsent. left. reflexivity.
Defined.

(** A null primary key index and an identity index past the last column both
    derive absent names. *)
Lemma deriveUpdatedTable_total_witness :
  BaseTableFormValues.primaryKeyIndex dangling = JS.Null /\
  out_of_bounds (BaseTableFormValues.columns dangling)
                (BaseTableFormValues.identityColumnIndex dangling) /\
  DatabaseTable.primaryKey (deriveUpdatedTable dangling) = None /\
  DatabaseTable.identityColumn (deriveUpdatedTable dangling) = None.
Proof.
  assert (Hout : out_of_bounds (BaseTableFormValues.columns dangling)
                               (BaseTableFormValues.identityColumnIndex dangling)).
  { right. vm_compute. discriminate. }
  destruct (deriveUpdatedTable_total normalize props healthy loaded dangling)
    as (Hprimary & Hidentity & _).
  split; [reflexivity |]. split; [exact Hout |].
  split; [apply Hprimary; left; reflexivity | exact (Hidentity Hout)].
Defined.

(** The renamed table with a rejecting tracking mutation: two calls, no throw. *)
Lemma tracking_rejected_aborts_witness :
  trackForeignKeyRelations failingTracking (trackVariables props renamed) =
    Rejected trackFailure /\
  run (handleSubmit normalize props failingTracking loaded renamed) =
    ([UpdateTable (updateVariables normalize props loaded renamed);
      TrackForeignKeyRelations (trackVariables props renamed)], inr tt).
Proof.
  split; [reflexivity |].
  exact (tracking_rejected_aborts normalize props failingTracking loaded renamed
           trackFailure eq_refl eq_refl eq_refl).
Defined.

(** The renamed table with a rejecting completion callback: the callback is
    called, the router and the toast are not. *)
Lemma callback_rejected_aborts_witness :
  updateTable healthy (updateVariables normalize propsFailingCallback loaded renamed) =
    Resolved /\
  NormalizedQueryDataRow.table_name (table propsFailingCallback) <>
    BaseTableFormValues.name renamed /\
  calls isOnSubmit
    (fst (run (handleSubmit normalize propsFailingCallback healthy loaded renamed))) =
    [OnSubmit] /\
  calls isRouterPush
    (fst (run (handleSubmit normalize propsFailingCallback healthy loaded renamed))) = [].
Proof.
  split; [reflexivity |]. split; [discriminate |].
  pose proof (callback_rejected_aborts normalize propsFailingCallback healthy loaded
                renamed (fun _ => Rejected callbackFailure) callbackFailure
                eq_refl (fun _ => eq_refl) eq_refl eq_refl) as H.
  split; apply H.
Defined.

(** No callback call without the prop; one call with it. *)
Lemma callback_only_when_supplied_witness :
  (onSubmit propsNoCallback = None /\
   calls isOnSubmit
     (fst (run (handleSubmit normalize propsNoCallback healthy loaded renamed))) = []) /\
  calls isOnSubmit
    (fst (run (handleSubmit normalize props healthy loaded renamed))) = [OnSubmit].
Proof.
  split.
  - split; [reflexivity |].
    exact (proj1 (callback_only_when_supplied normalize propsNoCallback healthy
                    loaded renamed) eq_refl).
  - exact (proj2 (callback_only_when_supplied normalize props healthy loaded renamed)
                 (fun _ => Resolved) eq_refl eq_refl (fun _ => eq_refl)).
Defined.

(** Neither a pending load nor a successful load without columns hydrates. *)
Lemma hydration_skipped_witness :
  (columnsStatus pending <> Status.success /\
   useEffect_hydration normalize props pending = pending) /\
  (dataGridColumns normalize (mount props (loadedQuery [])) = [] /\
   useEffect_hydration normalize props (mount props (loadedQuery [])) =
     mount props (loadedQuery [])).
Proof.
  assert (Hpending : columnsStatus pending <> Status.success) by discriminate.
  split.
  - split; [exact Hpending |].
    exact (hydration_skipped normalize props pending (or_introl Hpending)).
  - split; [reflexivity |].
    exact (hydration_skipped normalize props (mount props (loadedQuery []))
             (or_intror eq_refl)).
Defined.

(** [books] hydrated and sent back untouched names [id] twice. *)
Lemma hydrated_submit_names_witness :
  dataGridColumns normalize loaded <> [] /\
  DatabaseTable.primaryKey
    (deriveUpdatedTable (form (useEffect_hydration normalize props loaded))) =
    Some "id" /\
  DatabaseTable.identityColumn
    (deriveUpdatedTable (form (useEffect_hydration normalize props loaded))) =
    Some "id".
Proof.
  assert (Hcols : dataGridColumns normalize loaded <> []) by discriminate.
  destruct (hydrated_submit_names normalize props loaded eq_refl Hcols eq_refl)
    as (_ & _ & _ & Hprimary & Hidentity & _).
  split; [exact Hcols |]. split; [exact Hprimary | exact Hidentity].
Defined.

(** Load, hydration and a failed tracking, but no edit: no navigation. *)
Lemma navigation_requires_an_edit_witness :
  calls isRouterPush
    (fst (run (handleSubmit normalize props healthy trackingFailed
                 (form trackingFailed)))) = [].
Proof.
  exact (proj2 (navigation_requires_an_edit normalize props loadingQuery
                  [QuerySettled (loadedQuery bookColumns);
                   EffectRun;
                   MutationSettled None (Some trackFailure)]
                  healthy eq_refl)).
Defined.


(** Why the contract on the table query is assumed: were the query to hold
    an error with the status ['success'], "Clear" would be offered and the
    load error would outlast the click. *)
Example clear_needs_the_query_contract :
  ~ load_error_means_failed staleErrorQuery /\
  onClick_clear instanceofError staleError = Some (resetError staleError) /\
  error (resetError staleError) = Some loadFailure.
Proof.
  split; [| split; reflexivity].
  intros Hcontract. assert (Hstatus : Status.success = Status.error).
  { apply Hcontract. discriminate. }
  discriminate Hstatus.
Qed.

(** A rejection value that is no instance of [Error] is not shown and
    cannot be cleared. *)
Example response_object_not_shown :
  error responseFailed = Some responseFailure /\
  render instanceofError responseFailed = FormProvider None "Save" /\
  onClick_clear instanceofError responseFailed = None.
Proof. repeat split. Qed.

(** With only the tracking error set, "Clear" removes the alert. *)
Lemma clear_dismisses_iff_witness :
  onClick_clear instanceofError trackingFailed = Some (resetError trackingFailed) /\
  render instanceofError trackingFailed =
    FormProvider (Some "relationship not tracked") "Save" /\
  render instanceofError (resetError trackingFailed) = FormProvider None "Save".
Proof.
  split; [reflexivity |]. split; [reflexivity |].
  exact (proj1 (clear_dismisses_iff instanceofError trackingFailed
                  (resetError trackingFailed) eq_refl)).
Defined.

(** After the failed reload the tracking error is not shown and cannot be
    cleared. *)
Lemma mutation_errors_hidden_until_loaded_witness :
  columnsStatus failed = Status.error /\
  render instanceofError failed = LoadErrorAlert "permission denied" /\
  render instanceofError (set_mutationErrors None None failed) =
    render instanceofError failed /\
  onClick_clear instanceofError failed = None.
Proof.
  split; [reflexivity |]. split; [reflexivity |].
  destruct (mutation_errors_hidden_until_loaded instanceofError failed
              (formInitialized failed) (form failed) None None
              (or_intror eq_refl)) as [Hview _].
  destruct (mutation_errors_hidden_until_loaded instanceofError failed
              (formInitialized failed) (form failed)
              (updateError failed) (foreignKeyError failed)
              (or_intror eq_refl)) as [_ Hclear].
  split; [exact Hview | exact Hclear].
Defined.

End SampleRuns.

(** ** Properties of the system environment variables panel *)

Section SettingsProperties.

Import SystemEnvironmentVariableSettings.

(** C9: toggling a secret's visibility flag twice restores the state, and
    with it the text shown for the secret; one toggle negates that flag and
    nothing else, the handler calls no collaborator, and the variables that
    key the secrets query are untouched, so no request is issued. *)
Theorem toggle_twice_restores (ctx : HookValues) (st : State) :
  let admin1 := fst (onClick_adminSecret st) in
  let admin2 := fst (onClick_adminSecret admin1) in
  let webhook1 := fst (onClick_webhookSecret st) in
  let webhook2 := fst (onClick_webhookSecret webhook1) in
  (admin2 = st /\
   adminSecretText ctx admin2 = adminSecretText ctx st) /\
  (webhook2 = st /\
   webhookSecretText ctx webhook2 = webhookSecretText ctx st) /\
  (showAdminSecret admin1 = negb (showAdminSecret st) /\
   showWebhookSecret admin1 = showWebhookSecret st) /\
  (showWebhookSecret webhook1 = negb (showWebhookSecret st) /\
   showAdminSecret webhook1 = showAdminSecret st) /\
  (snd (onClick_adminSecret st) = [] /\
   snd (onClick_webhookSecret st) = []) /\
  (queryVariables ctx admin1 = queryVariables ctx st /\
   queryVariables ctx webhook1 = queryVariables ctx st) /\
  (adminSecretText ctx
     (fst (onClick_adminSecret
             (fst (onClick_adminSecret initialState)))) =
     Text mask /\
   webhookSecretText ctx
     (fst (onClick_webhookSecret
             (fst (onClick_webhookSecret initialState)))) =
     Text mask).
Proof.
  destruct st as [admin webhook].
  assert (Hadmin :
    fst (onClick_adminSecret
           (fst (onClick_adminSecret (mkState admin webhook)))) =
    mkState admin webhook).
  { unfold onClick_adminSecret, setShowAdminSecret,
           onClick_webhookSecret, setShowWebhookSecret.
    cbn [fst showAdminSecret showWebhookSecret].
    now rewrite negb_involutive. }
  assert (Hwebhook :
    fst (onClick_webhookSecret
           (fst (onClick_webhookSecret (mkState admin webhook)))) =
    mkState admin webhook).
  { unfold onClick_adminSecret, setShowAdminSecret,
           onClick_webhookSecret, setShowWebhookSecret.
    cbn [fst showAdminSecret showWebhookSecret].
    now rewrite negb_involutive. }
  cbv zeta. rewrite Hadmin, Hwebhook.
  repeat split.
Qed.

Import SystemEnvironmentVariablePanel.

(** X14: after any sequence of clicks a secret is shown exactly when the number
    of clicks on its own eye button is odd (even, if it was shown at the
    start); the dialogs opened are one per click on the JWT button, each
    with the JWT secret of the query result. *)
Theorem clicks_parity (ctx : HookValues) (cs : list Click) (st : State) :
  let final := fst (clicks ctx st cs) in
  showAdminSecret final =
    xorb (Nat.odd (length (filter isClickAdminSecret cs))) (showAdminSecret st) /\
  showWebhookSecret final =
    xorb (Nat.odd (length (filter isClickWebhookSecret cs))) (showWebhookSecret st) /\
  snd (clicks ctx st cs) =
    repeat (OpenAlertDialog "Auth JWT Secret"
              (match JS.chain (data ctx) app with
               | Some (Some a) => Some (hasuraGraphqlJwtSecret a)
               | _ => None
               end))
           (length (filter isClickJwtSecret cs)).
Proof.
  cbv zeta. revert st.
  induction cs as [|c rest IH]; intros st.
  - simpl. now destruct (showAdminSecret st), (showWebhookSecret st).
  - cbn [clicks].
    destruct (onClick ctx st c) as [st' made] eqn:Hclick.
    specialize (IH st').
    destruct (clicks ctx st' rest) as [final later].
    cbn [fst snd] in *. destruct IH as (Hadmin & Hwebhook & Hdialogs).
    rewrite Hadmin, Hwebhook, Hdialogs.
    destruct c; cbn in Hclick; inversion Hclick; subst st' made;
      cbn [filter isClickAdminSecret isClickWebhookSecret isClickJwtSecret
           length repeat app showAdminSecret showWebhookSecret
           setShowAdminSecret setShowWebhookSecret];
      rewrite ?Nat.odd_succ, <- ?Nat.negb_odd;
      repeat split;
      try (destruct (Nat.odd (length (filter isClickAdminSecret rest))),
                    (showAdminSecret st); reflexivity);
      try (destruct (Nat.odd (length (filter isClickWebhookSecret rest))),
                    (showWebhookSecret st); reflexivity).
Qed.

(** X15: while both secrets are masked, nothing the panel renders depends on the
    admin secret or the webhook secret. *)
Theorem masked_panel_hides_secrets
    (ctx : HookValues) (st : State) (loading : bool) (queryError : option Error)
    (admin webhook : string) :
  showAdminSecret st = false ->
  showWebhookSecret st = false ->
  render loading queryError (withSecrets admin webhook ctx) st =
  render loading queryError ctx st.
Proof.
  intros Hadmin Hwebhook.
  unfold render, adminSecretRowOf, webhookSecretRowOf,
         adminSecretText, webhookSecretText.
  now rewrite Hadmin, Hwebhook.
Qed.

(** X16: the label and the icon of an eye button agree with the value cell next
    to it: the button offers to show the secret, with the open eye, exactly
    when the cell holds the mask. *)
Theorem eye_button_agrees_with_text (ctx : HookValues) (st : State) :
  let admin := adminSecretRowOf ctx st in
  let webhook := webhookSecretRowOf ctx st in
  (valueText admin = Text mask <-> ariaLabel admin = "Show Admin Secret") /\
  (valueText admin = Text mask <-> icon admin = EyeIcon) /\
  (valueText webhook = Text mask <-> ariaLabel webhook = "Show Webhook Secret") /\
  (valueText webhook = Text mask <-> icon webhook = EyeIcon).
Proof.
  cbv zeta. unfold adminSecretRowOf, webhookSecretRowOf,
                   adminSecretText, webhookSecretText.
  cbn [valueText ariaLabel icon].
  destruct (showAdminSecret st), (showWebhookSecret st);
    repeat split; intros H; try reflexivity; discriminate H.
Qed.

(** X17: the JWT secret is never part of what the panel renders, in any state of
    the two flags, and no click makes the flags depend on it: it is only
    handed to the alert dialog. *)
Theorem jwt_secret_never_rendered
    (ctx : HookValues) (st : State) (loading : bool) (queryError : option Error)
    (secret : string) (cs : list Click) :
  render loading queryError (withJwtSecret secret ctx) st =
    render loading queryError ctx st /\
  fst (clicks (withJwtSecret secret ctx) st cs) = fst (clicks ctx st cs).
Proof.
  split.
  - unfold render, adminSecretRowOf, webhookSecretRowOf,
           adminSecretText, webhookSecretText, withJwtSecret.
    cbn [currentApplication data].
    destruct (data ctx) as [[[a|]]|]; reflexivity.
  - revert st. induction cs as [|c rest IH]; intros st; [reflexivity |].
    cbn [clicks].
    assert (Hstate : fst (onClick (withJwtSecret secret ctx) st c) =
                     fst (onClick ctx st c)) by now destruct c.
    destruct (onClick (withJwtSecret secret ctx) st c) as [st1 made1].
    destruct (onClick ctx st c) as [st2 made2].
    cbn [fst] in Hstate. subst st2. specialize (IH st1).
    destruct (clicks (withJwtSecret secret ctx) st1 rest) as [final1 later1].
    destruct (clicks ctx st1 rest) as [final2 later2].
    exact IH.
Qed.

End SettingsProperties.

(** ** The panel on the sample application *)

Module PanelRuns.

Import Sample.

(** The panel as mounted shows the same whatever the two secrets are. *)
Lemma masked_panel_hides_secrets_witness :
  SystemEnvironmentVariablePanel.render false None
    (SystemEnvironmentVariablePanel.withSecrets "other" "values" hookValues)
    SystemEnvironmentVariableSettings.initialState =
  SystemEnvironmentVariablePanel.render false None hookValues
    SystemEnvironmentVariableSettings.initialState.
Proof.
  exact (masked_panel_hides_secrets hookValues
           SystemEnvironmentVariableSettings.initialState false None
           "other" "values" eq_refl eq_refl).
Defined.


End PanelRuns.
